(** * fast-docker: the host-connection and command-dispatch layer

    A shallow embedding of [models.py], [docker_manager.py],
    [compose_manager.py] and the request handlers of [main.py].

    - Python [str] values are Rocq strings; a character stands for the code
      point of the same number (0..255).
    - [Optional[...]] fields are [option]s, and Python truthiness of such a
      field is written out ([truthy]).
    - The tables behind the SQLModel session are a pair of finite maps from
      primary keys to rows; a handler takes the registry and returns the
      registry it leaves behind. Every use of a mapped class or of the
      session first configures the mappers from the declarations of
      [models.py] ([Mapper]).
    - Everything the process does to the outside (SSH sessions, the Docker
      daemon, the Compose wrapper) is recorded in a trace of [event]s; what
      the outside answers is read from a [World]. *)

From Stdlib Require Import ZArith Lia Ascii String.
From stdpp Require Import base option list strings pretty gmap fin_maps sorting.

Local Open Scope Z_scope.
Local Open Scope string_scope.

(** ** Python string operations used by the sources *)

Module PyStr.

(** [str.isspace] on one character: the code points below 256 that CPython
    classifies as whitespace. *)
Definition isspace (c : ascii) : bool :=
  let n := Ascii.N_of_ascii c in
  ((9 <=? n)%N && (n <=? 13)%N) || ((28 <=? n)%N && (n <=? 32)%N)
  || (n =? 133)%N || (n =? 160)%N.

Fixpoint lstrip (s : string) : string :=
  match s with
  | EmptyString => EmptyString
  | String c r => if isspace c then lstrip r else s
  end.

Fixpoint rstrip (s : string) : string :=
  match s with
  | EmptyString => EmptyString
  | String c r =>
      match rstrip r with
      | EmptyString => if isspace c then EmptyString else String c EmptyString
      | r' => String c r'
      end
  end.

(** [s.strip()] *)
Definition strip (s : string) : string := rstrip (lstrip s).

(** Splitting at the last ["/"]: [None] when the text has none. *)
Fixpoint rpartition_slash (s : string) : option (string * string) :=
  match s with
  | EmptyString => None
  | String c r =>
      match rpartition_slash r with
      | Some (h, t) => Some (String c h, t)
      | None => if Ascii.eqb c "/"%char then Some (EmptyString, r) else None
      end
  end.

(** [s.rsplit("/", 1)] *)
Definition rsplit_slash_1 (s : string) : list string :=
  match rpartition_slash s with
  | Some (h, t) => [h; t]
  | None => [s]
  end.

(** Line boundaries of [str.splitlines] below code point 256. *)
Definition is_linebreak (c : ascii) : bool :=
  let n := Ascii.N_of_ascii c in
  ((10 <=? n)%N && (n <=? 13)%N) || ((28 <=? n)%N && (n <=? 30)%N)
  || (n =? 133)%N.

(** [splitlines_from skip_lf cur s]: [cur] is the line read so far,
    reversed; [skip_lf] says that the previous character was a carriage
    return, whose line feed belongs to the same boundary. *)
Fixpoint splitlines_from (skip_lf : bool) (cur : list ascii) (s : string)
  : list string :=
  match s with
  | EmptyString =>
      match cur with
      | [] => []
      | _ => [string_of_list_ascii (rev cur)]
      end
  | String c r =>
      if skip_lf && Ascii.eqb c "010"%char then splitlines_from false cur r
      else if is_linebreak c then
        string_of_list_ascii (rev cur)
          :: splitlines_from (Ascii.eqb c "013"%char) [] r
      else splitlines_from false (c :: cur) r
  end.

(** [s.splitlines()] *)
Definition splitlines (s : string) : list string :=
  splitlines_from false [] s.

End PyStr.

(** Truthiness of an [Optional[str]]: [None] and the empty text are falsy. *)
Definition truthy (o : option string) : bool :=
  match o with
  | Some s => negb (String.eqb s "")
  | None => false
  end.

(** ** models.py *)

Module Host.
Record t := mk {
  id : option Z;
  name : string;
  host : string;
  connection_type : string;
  docker_url : option string;
  ssh_user : option string;
  ssh_key_filename : option string;
  ssh_port : option Z;
  sudo_user : option string;
  sudo_password : option string
}.

(** The primary key the storage assigned, as [session.refresh] reads it. *)
Definition set_id (k : Z) (h : t) : t :=
  mk (Some k) (name h) (host h) (connection_type h) (docker_url h)
    (ssh_user h) (ssh_key_filename h) (ssh_port h) (sudo_user h)
    (sudo_password h).
End Host.

Module Stack.
Record t := mk {
  id : option Z;
  name : string;
  compose_file : string;
  host_id : Z
}.

(** [stack.host_id = h] *)
Definition set_host_id (h : Z) (s : t) : t :=
  mk (id s) (name s) (compose_file s) h.

(** The primary key the storage assigned, as [session.refresh] reads it. *)
Definition set_id (k : Z) (s : t) : t :=
  mk (Some k) (name s) (compose_file s) (host_id s).
End Stack.

(** What [models.py] declares to the mapping layer: per class its columns
    and its relationships. [Stack.host] is declared with
    [back_populates="stacks"]; [Host] declares no relationship. *)
Module Mapper.
Record relationship := mk_relationship {
  attr : string;
  target : string;
  back_populates : option string
}.

Record model := mk_model {
  class_name : string;
  columns : list string;
  relationships : list relationship
}.

Definition Stack_model : model :=
  mk_model "Stack" ["id"; "name"; "compose_file"; "host_id"]
    [mk_relationship "host" "Host" (Some "stacks")].

Definition Host_model : model :=
  mk_model "Host"
    ["id"; "name"; "host"; "connection_type"; "docker_url"; "ssh_user";
     "ssh_key_filename"; "ssh_port"; "sudo_user"; "sudo_password"]
    [].

Definition models : list model := [Stack_model; Host_model].

Definition has_property (m : model) (p : string) : bool :=
  existsb (String.eqb p) (columns m ++ map attr (relationships m)).

(** A relationship is sound when the property its [back_populates] names
    exists on the target class. *)
Definition relationship_ok (ms : list model) (r : relationship) : bool :=
  match back_populates r with
  | None => true
  | Some p =>
      match find (fun m => String.eqb (class_name m) (target r)) ms with
      | Some m => has_property m p
      | None => false
      end
  end.

(** Mapper configuration succeeds when every relationship is sound. *)
Definition configure (ms : list model) : bool :=
  forallb (fun m => forallb (relationship_ok ms) (relationships m)) ms.
End Mapper.

(** ** Exceptions *)

Inductive exn :=
| HTTPException (status_code : Z) (detail : string)
| PyError (cls : string) (msg : string).

(** [str(e)] *)
Definition py_str (e : exn) : string :=
  match e with
  | HTTPException s d => pretty s +:+ ": " +:+ d
  | PyError _ m => m
  end.

(** Reading an attribute of [None]. *)
Definition NoneType_has_no (attr : string) : exn :=
  PyError "AttributeError"
    ("'NoneType' object has no attribute '" +:+ attr +:+ "'").

(** What the HTTP boundary answers: the status of an [HTTPException], 500 for
    any other exception that reaches it, 200 for a returned value. *)
Definition response_status {A} (r : exn + A) : Z :=
  match r with
  | inr _ => 200
  | inl (HTTPException s _) => s
  | inl (PyError _ _) => 500
  end.

(** ** The outside world *)

(** A Fabric [Connection]; [config_sudo_password] is the ["sudo"]["password"]
    override of its [Config], absent when the overrides are empty. *)
Module Connection.
Record t := mk {
  host : string;
  user : option string;
  port : option Z;
  key_filename : option string;
  config_sudo_password : option string
}.
End Connection.

(** The two ways a command is issued on a [Connection]. *)
Inductive fabric_call :=
| Sudo (cmd : string) (user : option string) (hide : bool)
| Run (cmd : string) (hide : bool).

(** A Fabric [Result]. *)
Module Result.
Record t := mk { stdout : string; stderr : string; exited : Z }.
End Result.

(** What becomes of a call: [Refused] when [Connection(...)] itself raises
    on its arguments (a user or a port given both in the host text and as an
    argument), so that nothing is sent; otherwise what the remote side does
    with the call. *)
Inductive remote_outcome :=
| Refused (text : string)
| ConnectFailure (text : string)
| AuthFailure (text : string)
| Completed (r : Result.t).

(** A [docker.DockerClient] and the containers it lists. *)
Module DockerClient.
Record t := mk { base_url : option string }.
End DockerClient.

Module Container.
Record t := mk { short_id : string; name : string; status : string }.
End Container.

Inductive daemon_call :=
| ContainersList (all : bool)
| ContainersGet (container_id : string)
| ContainerStart (container_id : string).

(** JSON values, as [json.loads] builds them and as the handlers return
    them; numbers keep their lexeme. *)
#[warnings="-register-all"]
Inductive json :=
| JNull
| JBool (b : bool)
| JNum (lexeme : string)
| JStr (s : string)
| JList (l : list json)
| JObj (fields : list (string * json)).

(** A value of the Compose wrapper that the handlers pass through. *)
Inductive pyobj := PyObj (repr : string).

Inductive compose_verb := VUp (detach : bool) | VDown | VPs | VRestart.

Inductive event :=
| EvDockerClient (base_url : option string)
| EvDaemon (client : DockerClient.t) (call : daemon_call)
| EvShell (conn : Connection.t) (call : fabric_call)
| EvComposeInit (working_dir filename : string)
| EvCompose (working_dir filename : string) (v : compose_verb).

(** ** Effects: a trace of events and a value or a raised exception *)

Record Eff (A : Type) := mkEff { trace : list event; outcome : exn + A }.
Arguments mkEff {A} _ _.
Arguments trace {A} _.
Arguments outcome {A} _.

Definition ret {A} (x : A) : Eff A := mkEff [] (inr x).
Definition raise {A} (e : exn) : Eff A := mkEff [] (inl e).
Definition emit (ev : event) : Eff unit := mkEff [ev] (inr tt).

Definition bind {A B} (m : Eff A) (f : A -> Eff B) : Eff B :=
  match outcome m with
  | inl e => mkEff (trace m) (inl e)
  | inr x => let r := f x in mkEff (trace m ++ trace r) (outcome r)
  end.

(** [try: m  except Exception as e: h e] *)
Definition try_except {A} (m : Eff A) (h : exn -> Eff A) : Eff A :=
  match outcome m with
  | inl e => let r := h e in mkEff (trace m ++ trace r) (outcome r)
  | inr _ => m
  end.

(** An answer of the outside, lifted. *)
Definition lift {A} (r : exn + A) : Eff A := mkEff [] r.

Notation "'let*' x ':=' m 'in' k" := (bind m (fun x => k))
  (at level 10, x pattern, m at level 100, k at level 200).

Fixpoint mapM {A B} (f : A -> Eff B) (l : list A) : Eff (list B) :=
  match l with
  | [] => ret []
  | x :: r => let* y := f x in let* ys := mapM f r in ret (y :: ys)
  end.

(** [l[0]] *)
Definition getitem0 {A} (l : list A) : Eff A :=
  match l with
  | x :: _ => ret x
  | [] => raise (PyError "IndexError" "list index out of range")
  end.

(** The objects the two managers are made of. *)

Module DockerManager.
Record t := mk { host : option Host.t }.
End DockerManager.

(** The Compose wrapper's entry object; [run_command] is the bound method
    [manager.run_ssh_command], kept as the manager it is bound to. *)
Module DockerCompose.
Record t := mk {
  working_dir : string;
  filename : string;
  run_command : DockerManager.t
}.
End DockerCompose.

Module ComposeManager.
Record t := mk {
  stack : Stack.t;
  host : option Host.t;
  manager : DockerManager.t
}.

(** [ComposeManager(stack, host)] *)
Definition init (stack : Stack.t) (host : option Host.t) : t :=
  mk stack host (DockerManager.mk host).
End ComposeManager.

(** The answers of the collaborators that are not part of this repository:
    the remote shell reached through Fabric, the Docker daemon reached
    through the docker SDK, the Compose wrapper, [json.loads], and the text
    SQLAlchemy gives a failed mapper configuration. [compose_init] is what
    the constructor of the wrapper object raises on its arguments, if
    anything. *)
Record World := {
  remote : Connection.t -> fabric_call -> remote_outcome;
  str_UnexpectedExit : fabric_call -> Result.t -> string;
  docker_client_init : option string -> exn + DockerClient.t;
  daemon_list : DockerClient.t -> exn + list Container.t;
  daemon_get : DockerClient.t -> string -> exn + Container.t;
  daemon_start : DockerClient.t -> Container.t -> exn + unit;
  compose_init : DockerCompose.t -> option exn;
  compose_lib : DockerCompose.t -> compose_verb -> Eff pyobj;
  json_loads : string -> exn + json;
  str_InvalidRequestError : string
}.

Section Managers.
Context (w : World).

(** Fabric's [Connection(...)] with the arguments [conn], then [run] or
    [sudo] on it with [warn] left at its default. When the constructor
    refuses the arguments it raises [ValueError] and nothing is sent;
    otherwise a failure to connect or to authenticate raises, and so does a
    command that exits non-zero ([UnexpectedExit]). *)
Definition fabric_invoke (conn : Connection.t) (call : fabric_call)
  : Eff Result.t :=
  match remote w conn call with
  | Refused text => raise (PyError "ValueError" text)
  | ConnectFailure text =>
      let* _ := emit (EvShell conn call) in
      raise (PyError "NoValidConnectionsError" text)
  | AuthFailure text =>
      let* _ := emit (EvShell conn call) in
      raise (PyError "AuthenticationException" text)
  | Completed r =>
      let* _ := emit (EvShell conn call) in
      if Z.eqb (Result.exited r) 0 then ret r
      else raise (PyError "UnexpectedExit" (str_UnexpectedExit w call r))
  end.

(** [docker.DockerClient(base_url=url)] *)
Definition DockerClient_init (url : option string) : Eff DockerClient.t :=
  let* _ := emit (EvDockerClient url) in
  lift (docker_client_init w url).

(** [self.host.<attr>] where [self.host] may be [None]. *)
Definition host_attr {A} (host : option Host.t) (attr : string)
    (get : Host.t -> A) : Eff A :=
  match host with
  | Some h => ret (get h)
  | None => raise (NoneType_has_no attr)
  end.

(** *** docker_manager.py *)

Definition get_docker_client (self : DockerManager.t)
  : Eff (option DockerClient.t) :=
  let host := DockerManager.host self in
  let* connection_type := host_attr host "connection_type" Host.connection_type in
  if String.eqb connection_type "docker" then
    let* docker_url := host_attr host "docker_url" Host.docker_url in
    if negb (truthy docker_url) then
      raise (HTTPException 400 "Missing docker_url")
    else
      let* client := DockerClient_init docker_url in
      ret (Some client)
  else ret None.

(** The body of the [try] block of [run_ssh_command]. The [Connection] is
    built from the host's fields before [sudo_user] is read; reading
    [sudo_user] cannot fail once the fields before it were read, so
    [fabric_invoke] stands for the construction and the call together. *)
Definition run_ssh_command_body (self : DockerManager.t) (cmd : string)
  : Eff string :=
  let host := DockerManager.host self in
  let* sudo_password := host_attr host "sudo_password" Host.sudo_password in
  let config := if truthy sudo_password then sudo_password else None in
  let* h := host_attr host "host" Host.host in
  let* user := host_attr host "ssh_user" Host.ssh_user in
  let* port := host_attr host "ssh_port" Host.ssh_port in
  let* key_filename := host_attr host "ssh_key_filename" Host.ssh_key_filename in
  let conn := Connection.mk h user port key_filename config in
  let* sudo_user := host_attr host "sudo_user" Host.sudo_user in
  let* result :=
    if truthy sudo_user then fabric_invoke conn (Sudo cmd sudo_user true)
    else fabric_invoke conn (Run cmd true) in
  ret (PyStr.strip (Result.stdout result)).

Definition run_ssh_command (self : DockerManager.t) (cmd : string)
  : Eff string :=
  try_except (run_ssh_command_body self cmd)
    (fun e => raise (HTTPException 500 ("SSH command failed: " +:+ py_str e))).

(** *** compose_manager.py *)

(** [DockerCompose(working_dir=.., filename=.., run_command=..)]: the
    constructor is handed the three arguments and may raise on them. *)
Definition DockerCompose_init (working_dir filename : string)
    (run_command : DockerManager.t) : Eff DockerCompose.t :=
  let compose := DockerCompose.mk working_dir filename run_command in
  let* _ := emit (EvComposeInit working_dir filename) in
  match compose_init w compose with
  | Some e => raise e
  | None => ret compose
  end.

(** A verb called on the wrapper object. *)
Definition compose_call (c : DockerCompose.t) (v : compose_verb) : Eff pyobj :=
  let* _ :=
    emit (EvCompose (DockerCompose.working_dir c) (DockerCompose.filename c) v) in
  compose_lib w c v.

Definition _get_compose (self : ComposeManager.t) : Eff DockerCompose.t :=
  let* connection_type :=
    host_attr (ComposeManager.host self) "connection_type" Host.connection_type in
  if String.eqb connection_type "docker" then
    raise (HTTPException 400 "Docker Compose operations require SSH access")
  else
    let compose_file := Stack.compose_file (ComposeManager.stack self) in
    let* working_dir := getitem0 (PyStr.rsplit_slash_1 compose_file) in
    DockerCompose_init working_dir compose_file (ComposeManager.manager self).

Definition up (self : ComposeManager.t) : Eff pyobj :=
  let* compose := _get_compose self in
  compose_call compose (VUp true).

Definition down (self : ComposeManager.t) : Eff pyobj :=
  let* compose := _get_compose self in
  compose_call compose VDown.

Definition ps (self : ComposeManager.t) : Eff pyobj :=
  let* compose := _get_compose self in
  compose_call compose VPs.

Definition restart (self : ComposeManager.t) : Eff pyobj :=
  let* compose := _get_compose self in
  compose_call compose VRestart.

End Managers.

(** ** The registry behind the SQLModel session

    The tables are finite maps from primary keys to rows. The engine of
    [db.py] is SQLite opened without the foreign-key pragma: an insert
    checks the primary key only and a delete touches one table only. Before
    any of this, every operation of the session, and every construction of a
    [Host] or a [Stack], has SQLAlchemy configure the mappers; when that
    fails the operation raises [InvalidRequestError] and the tables are not
    reached. *)

Module Session.
Record t := mk {
  hosts : gmap Z Host.t;
  stacks : gmap Z Stack.t
}.

(** Mapper configuration, then the value [x]. *)
Definition orm {A} (w : World) (x : A) : exn + A :=
  if Mapper.configure Mapper.models then inr x
  else inl (PyError "InvalidRequestError" (str_InvalidRequestError w)).

(** Building a [Host] or a [Stack] from a request body. *)
Definition instance {A} (w : World) (x : A) : exn + A := orm w x.

(** The largest primary key of a table. *)
Definition max_rowid {A} (m : gmap Z A) : option Z :=
  foldr (fun kv acc =>
           Some (match acc with
                 | Some a => Z.max (fst kv) a
                 | None => fst kv
                 end))
        None (map_to_list m).

(** The key SQLite gives a row inserted without one. *)
Definition next_rowid {A} (m : gmap Z A) : Z :=
  match max_rowid m with
  | Some k => k + 1
  | None => 1
  end.

(** [session.get(Host, k)] and [session.get(Stack, k)] *)
Definition get_host (w : World) (k : Z) (s : t) : exn + option Host.t :=
  orm w (hosts s !! k).

Definition get_stack (w : World) (k : Z) (s : t) : exn + option Stack.t :=
  orm w (stacks s !! k).

(** [session.delete(host); session.commit()] for the host stored at [k]. *)
Definition delete_host (w : World) (k : Z) (s : t) : exn + t :=
  orm w (mk (delete k (hosts s)) (stacks s)).

(** [session.add(stack); session.commit(); session.refresh(stack)]: the
    refreshed row and the registry, or the error raised. *)
Definition add_stack (w : World) (stack : Stack.t) (s : t)
  : exn + (Stack.t * t) :=
  match orm w tt with
  | inl e => inl e
  | inr _ =>
      match Stack.id stack with
      | None =>
          let k := next_rowid (stacks s) in
          let row := Stack.set_id k stack in
          inr (row, mk (hosts s) (<[k := row]> (stacks s)))
      | Some k =>
          match stacks s !! k with
          | Some _ =>
              inl (PyError "IntegrityError" "UNIQUE constraint failed: stack.id")
          | None => inr (stack, mk (hosts s) (<[k := stack]> (stacks s)))
          end
      end
  end.

(** [session.add(host); session.commit(); session.refresh(host)] *)
Definition add_host (w : World) (host : Host.t) (s : t)
  : exn + (Host.t * t) :=
  match orm w tt with
  | inl e => inl e
  | inr _ =>
      match Host.id host with
      | None =>
          let k := next_rowid (hosts s) in
          let row := Host.set_id k host in
          inr (row, mk (<[k := row]> (hosts s)) (stacks s))
      | Some k =>
          match hosts s !! k with
          | Some _ =>
              inl (PyError "IntegrityError" "UNIQUE constraint failed: host.id")
          | None => inr (host, mk (<[k := host]> (hosts s)) (stacks s))
          end
      end
  end.

(** The order of two rows by primary key. *)
Definition key_le {A} (a b : Z * A) : Prop := fst a <= fst b.

#[global] Instance key_le_dec {A} (a b : Z * A) : Decision (key_le a b) :=
  Z_le_dec (fst a) (fst b).

(** The rows of a table, by primary key. *)
Definition rows {A} (m : gmap Z A) : list A :=
  (merge_sort key_le (map_to_list m)).*2.

(** [session.exec(select(Host)).all()] *)
Definition select_hosts (w : World) (s : t) : exn + list Host.t :=
  orm w (rows (hosts s)).

(** [session.exec(select(Stack).where(Stack.host_id == host_id)).all()] *)
Definition select_stacks (w : World) (host_id : Z) (s : t)
  : exn + list Stack.t :=
  orm w (filter (fun st => Stack.host_id st = host_id) (rows (stacks s))).

(** Every stored stack names a stored host. *)
Definition stacks_reference_hosts (s : t) : Prop :=
  map_Forall (fun _ st => is_Some (hosts s !! Stack.host_id st)) (stacks s).
End Session.

(** ** main.py: the request handlers

    A handler maps the registry to the registry it leaves and what it
    returns or raises. *)

Section Handlers.
Context (w : World).

Definition Handler (A : Type) : Type := Session.t -> Session.t * Eff A.

Definition add_host (host : Host.t) : Handler Host.t := fun session =>
  match Session.instance w host with
  | inl e => (session, raise e)
  | inr host =>
      match Session.add_host w host session with
      | inl e => (session, raise e)
      | inr (row, session') => (session', ret row)
      end
  end.

Definition list_hosts : Handler (list Host.t) := fun session =>
  (session, lift (Session.select_hosts w session)).

Definition get_host (host_id : Z) : Handler Host.t := fun session =>
  (session,
   let* host := lift (Session.get_host w host_id session) in
   match host with
   | None => raise (HTTPException 404 "Host not found")
   | Some host => ret host
   end).

Definition delete_host (host_id : Z) : Handler string := fun session =>
  match Session.get_host w host_id session with
  | inl e => (session, raise e)
  | inr None => (session, raise (HTTPException 404 "Host not found"))
  | inr (Some _) =>
      match Session.delete_host w host_id session with
      | inl e => (session, raise e)
      | inr session' => (session', ret "Host deleted")
      end
  end.

(** [{"id": c.short_id, "name": c.name, "status": c.status}] *)
Definition container_dict (c : Container.t) : json :=
  JObj [("id", JStr (Container.short_id c));
        ("name", JStr (Container.name c));
        ("status", JStr (Container.status c))].

(** [client.containers] on what [get_docker_client] returned. *)
Definition client_containers (client : option DockerClient.t)
  : Eff DockerClient.t :=
  match client with
  | Some c => ret c
  | None => raise (NoneType_has_no "containers")
  end.

(** [list_containers] from its second line on, [host] being what
    [session.get] returned. *)
Definition list_containers_on (host : option Host.t) : Eff (list json) :=
  let manager := DockerManager.mk host in
  let* connection_type := host_attr host "connection_type" Host.connection_type in
  if String.eqb connection_type "docker" then
    let* client := get_docker_client w manager in
    let* c := client_containers client in
    let* _ := emit (EvDaemon c (ContainersList true)) in
    let* cs := lift (daemon_list w c) in
    ret (map container_dict cs)
  else
    let* output := run_ssh_command w manager "docker ps -a --format '{{json .}}'" in
    mapM (fun line => lift (json_loads w line)) (PyStr.splitlines output).

Definition list_containers (host_id : Z) : Handler (list json) := fun session =>
  (session,
   let* host := lift (Session.get_host w host_id session) in
   list_containers_on host).

(** [start_container] from its second line on. *)
Definition start_container_on (host : option Host.t) (container_id : string)
  : Eff string :=
  let manager := DockerManager.mk host in
  let* connection_type := host_attr host "connection_type" Host.connection_type in
  let* _ :=
    if String.eqb connection_type "docker" then
      let* client := get_docker_client w manager in
      let* c := client_containers client in
      let* _ := emit (EvDaemon c (ContainersGet container_id)) in
      let* container := lift (daemon_get w c container_id) in
      let* _ := emit (EvDaemon c (ContainerStart container_id)) in
      lift (daemon_start w c container)
    else
      let* _ := run_ssh_command w manager ("docker start " +:+ container_id) in
      ret tt in
  ret ("Started container " +:+ container_id).

Definition start_container (host_id : Z) (container_id : string)
  : Handler string := fun session =>
  (session,
   let* host := lift (Session.get_host w host_id session) in
   start_container_on host container_id).

Definition create_stack (host_id : Z) (stack : Stack.t) : Handler Stack.t :=
  fun session =>
  match Session.instance w stack with
  | inl e => (session, raise e)
  | inr stack =>
      match Session.get_host w host_id session with
      | inl e => (session, raise e)
      | inr None => (session, raise (HTTPException 404 "Host not found"))
      | inr (Some _) =>
          let stack := Stack.set_host_id host_id stack in
          match Session.add_stack w stack session with
          | inl e => (session, raise e)
          | inr (row, session') => (session', ret row)
          end
      end
  end.

Definition list_stacks (host_id : Z) : Handler (list Stack.t) := fun session =>
  (session, lift (Session.select_stacks w host_id session)).

Definition stack_up (stack_id : Z) : Handler pyobj := fun session =>
  (session,
   let* stack := lift (Session.get_stack w stack_id session) in
   match stack with
   | None => raise (HTTPException 404 "Stack not found")
   | Some stack =>
       let* host := lift (Session.get_host w (Stack.host_id stack) session) in
       up w (ComposeManager.init stack host)
   end).

Definition stack_down (stack_id : Z) : Handler pyobj := fun session =>
  (session,
   let* stack := lift (Session.get_stack w stack_id session) in
   match stack with
   | None => raise (HTTPException 404 "Stack not found")
   | Some stack =>
       let* host := lift (Session.get_host w (Stack.host_id stack) session) in
       down w (ComposeManager.init stack host)
   end).

Definition stack_ps (stack_id : Z) : Handler pyobj := fun session =>
  (session,
   let* stack := lift (Session.get_stack w stack_id session) in
   match stack with
   | None => raise (HTTPException 404 "Stack not found")
   | Some stack =>
       let* host := lift (Session.get_host w (Stack.host_id stack) session) in
       ps w (ComposeManager.init stack host)
   end).

End Handlers.

(** ** Notions the properties are stated with *)

(** The session [run_ssh_command] opens for a host. *)
Definition connection_of (host : Host.t) : Connection.t :=
  Connection.mk (Host.host host) (Host.ssh_user host) (Host.ssh_port host)
    (Host.ssh_key_filename host)
    (if truthy (Host.sudo_password host) then Host.sudo_password host else None).

(** The call [run_ssh_command] makes on it. *)
Definition call_of (host : Host.t) (cmd : string) : fabric_call :=
  if truthy (Host.sudo_user host) then Sudo cmd (Host.sudo_user host) true
  else Run cmd true.

(** A text made of whitespace only. *)
Fixpoint all_space (s : string) : bool :=
  match s with
  | EmptyString => true
  | String c r => PyStr.isspace c && all_space r
  end.

(** The first and the last character of a text. *)
Definition first_char (s : string) : option ascii :=
  match s with
  | EmptyString => None
  | String c _ => Some c
  end.

Fixpoint last_char (s : string) : option ascii :=
  match s with
  | EmptyString => None
  | String c EmptyString => Some c
  | String _ r => last_char r
  end.

(** A text that neither starts nor ends with whitespace. *)
Definition trimmed (s : string) : Prop :=
  (forall c, first_char s = Some c -> PyStr.isspace c = false) /\
  (forall c, last_char s = Some c -> PyStr.isspace c = false).

(** What a route answers when the mapper configuration fails. *)
Definition mapper_failure {A} (w : World) : Eff A :=
  mkEff [] (inl (PyError "InvalidRequestError" (str_InvalidRequestError w))).

(** Whether a path has a ["/"]. *)
Fixpoint has_slash (path : string) : bool :=
  match path with
  | EmptyString => false
  | String c r => Ascii.eqb c "/"%char || has_slash r
  end.

(** A text made of ["/"] only. *)
Fixpoint all_slashes (s : string) : bool :=
  match s with
  | EmptyString => true
  | String c r => Ascii.eqb c "/"%char && all_slashes r
  end.

(** A text without the ["/"] at its end. *)
Fixpoint rstrip_slashes (s : string) : string :=
  match s with
  | EmptyString => EmptyString
  | String c r =>
      match rstrip_slashes r with
      | EmptyString =>
          if Ascii.eqb c "/"%char then EmptyString else String c EmptyString
      | r' => String c r'
      end
  end.

(** A path up to and including its last ["/"]; empty when it has none. *)
Fixpoint dir_head (path : string) : string :=
  match path with
  | EmptyString => EmptyString
  | String c r =>
      if has_slash r then String c (dir_head r)
      else if Ascii.eqb c "/"%char then String c EmptyString
      else EmptyString
  end.

(** The parent directory of a path, in the specification's words, as POSIX
    names it: the path up to its last ["/"], without the ["/"] at the end of
    that unless it is the root. *)
Definition parent_directory (path : string) : string :=
  let head := dir_head path in
  if all_slashes head then head else rstrip_slashes head.


(** Whether a host text carries a user ([user@host]). *)
Fixpoint has_at (s : string) : bool :=
  match s with
  | EmptyString => false
  | String c r => Ascii.eqb c "@"%char || has_at r
  end.

(** ** Sample hosts, stacks, registries and worlds *)

Definition api_host : Host.t :=
  Host.mk (Some 1) "edge" "1.2.3.4" "docker" (Some "tcp://1.2.3.4:2375")
    None None (Some 22) None None.

Definition api_host_without_url : Host.t :=
  Host.mk (Some 2) "edge" "1.2.3.4" "docker" None None None (Some 22) None None.

Definition ssh_host : Host.t :=
  Host.mk (Some 3) "prod" "prod.example.com" "ssh" None
    (Some "deploy") (Some "/k") (Some 22) None None.

Definition ssh_host_sudo : Host.t :=
  Host.mk (Some 4) "prod" "prod.example.com" "ssh" None
    (Some "deploy") (Some "/k") (Some 22) (Some "root") (Some "s3cret").

(** An SSH host that lacks both [ssh_user] and [ssh_key_filename]. *)
Definition ssh_host_incomplete : Host.t :=
  Host.mk (Some 5) "bare" "10.0.0.9" "ssh" None None None (Some 22) None None.

(** An SSH host whose address carries a user, next to [ssh_user]. *)
Definition shorthand_host : Host.t :=
  Host.mk (Some 6) "local" "root@127.0.0.1" "ssh" None
    (Some "deploy") (Some "/k") None None None.

Definition app_stack : Stack.t :=
  Stack.mk (Some 7) "app" "/opt/app/docker-compose.yml" 1.

Definition bare_stack : Stack.t :=
  Stack.mk None "bare" "docker-compose.yml" 3.

(** A stack whose compose file sits in the root directory. *)
Definition root_stack : Stack.t :=
  Stack.mk (Some 8) "root" "/compose.yml" 3.

Definition empty_session : Session.t := Session.mk ∅ ∅.

(** One API host and one stack bound to it. *)
Definition api_session : Session.t :=
  Session.mk {[ 1 := api_host ]} {[ 7 := app_stack ]}.

(** A world whose remote side answers every call with [o], and whose
    Compose wrapper does not take the keywords it is built with. *)
Definition world_answering (o : remote_outcome) : World :=
  {| remote := fun _ _ => o;
     str_UnexpectedExit := fun _ r => "Encountered a bad command exit code!";
     docker_client_init := fun url => inr (DockerClient.mk url);
     daemon_list := fun _ => inr [];
     daemon_get := fun _ cid => inr (Container.mk cid cid "exited");
     daemon_start := fun _ _ => inr tt;
     compose_init := fun _ =>
       Some (PyError "TypeError"
               "__init__() got an unexpected keyword argument 'working_dir'");
     compose_lib := fun _ _ => ret (PyObj "compose");
     json_loads := fun line => inr (JStr line);
     str_InvalidRequestError := "Mapper 'Mapper[Host(host)]' has no property 'stacks'." |}.

Definition newline : string := String "010"%char EmptyString.

Definition calm_world : World :=
  world_answering (Completed (Result.mk ("  web db " +:+ newline) "warning" 0)).

Definition refusing_world : World :=
  world_answering (ConnectFailure "Connection refused").

(** A world whose remote side prints only blank lines. *)
Definition blank_world : World :=
  world_answering (Completed (Result.mk (" " +:+ newline +:+ newline) "" 0)).

(** A world in which Fabric refuses a user given both in the host text and
    as an argument, the remote side otherwise prints two lines, the daemon
    lists two containers, and the Compose wrapper takes the keywords it is
    built with. *)
Definition busy_world : World :=
  {| remote := fun conn _ =>
       if has_at (Connection.host conn)
          && bool_decide (is_Some (Connection.user conn))
       then Refused "You supplied the user via both shorthand and kwarg! Please pick one."
       else Completed (Result.mk ("{}" +:+ newline +:+ "[1, 2]" +:+ newline) "" 0);
     str_UnexpectedExit := fun _ r => "Encountered a bad command exit code!";
     docker_client_init := fun url => inr (DockerClient.mk url);
     daemon_list := fun _ =>
       inr [Container.mk "0a1b2c3d4e5f" "web" "running";
            Container.mk "6f7e8d9c0b1a" "db" "exited"];
     daemon_get := fun _ cid => inr (Container.mk cid cid "exited");
     daemon_start := fun _ _ => inr tt;
     compose_init := fun _ => None;
     compose_lib := fun _ _ => ret (PyObj "compose");
     json_loads := fun line => inr (JStr line);
     str_InvalidRequestError := "Mapper 'Mapper[Host(host)]' has no property 'stacks'." |}.

(** A world whose daemon knows no container. *)
Definition bare_world : World :=
  {| remote := fun _ _ => Completed (Result.mk "not json" "" 0);
     str_UnexpectedExit := fun _ r => "Encountered a bad command exit code!";
     docker_client_init := fun url => inr (DockerClient.mk url);
     daemon_list := fun _ => inl (PyError "APIError" "500 Server Error");
     daemon_get := fun _ cid => inl (PyError "NotFound" ("No such container: " +:+ cid));
     daemon_start := fun _ _ => inr tt;
     compose_init := fun _ => None;
     compose_lib := fun _ _ => ret (PyObj "compose");
     json_loads := fun line => inl (PyError "JSONDecodeError" "Expecting value");
     str_InvalidRequestError := "Mapper 'Mapper[Host(host)]' has no property 'stacks'." |}.

(** * Properties *)

Lemma host_attr_some {A} (host : Host.t) (attr : string) (get : Host.t -> A) :
  host_attr (Some host) attr get = ret (get host).
Proof. reflexivity. Qed.

Lemma bind_ret {A B} (x : A) (f : A -> Eff B) : bind (ret x) f = f x.
Proof. unfold bind, ret; simpl. by destruct (f x). Qed.

(** ** The Docker client *)

(** C4. For a host whose [connection_type] is ["docker"] and whose
    [docker_url] is absent or empty, [get_docker_client] raises
    [HTTPException(400, "Missing docker_url")] and its trace is empty: no
    client is built and the daemon is not contacted. *)
Theorem get_docker_client_missing_url (w : World) (host : Host.t) :
  Host.connection_type host = "docker" ->
  Host.docker_url host = None \/ Host.docker_url host = Some "" ->
  get_docker_client w (DockerManager.mk (Some host))
  = mkEff [] (inl (HTTPException 400 "Missing docker_url"))
  /\ response_status (outcome (get_docker_client w (DockerManager.mk (Some host)))) = 400.
Proof.
  intros Hkind Hurl.
  assert (Hfalsy : truthy (Host.docker_url host) = false).
  { by destruct Hurl as [-> | ->]. }
  assert (Hraise : get_docker_client w (DockerManager.mk (Some host))
                   = mkEff [] (inl (HTTPException 400 "Missing docker_url"))).
  { unfold get_docker_client. cbn [DockerManager.host].
    rewrite !host_attr_some, bind_ret, Hkind. cbn [String.eqb Ascii.eqb Bool.eqb].
    rewrite bind_ret, Hfalsy. reflexivity. }
  by rewrite Hraise.
Qed.

Lemma get_docker_client_missing_url_witness :
  get_docker_client calm_world (DockerManager.mk (Some api_host_without_url))
  = mkEff [] (inl (HTTPException 400 "Missing docker_url"))
  /\ response_status
       (outcome (get_docker_client calm_world
                   (DockerManager.mk (Some api_host_without_url)))) = 400.
Proof.
  apply (get_docker_client_missing_url calm_world api_host_without_url).
  - reflexivity.
  - left. reflexivity.
Defined.

(** C10. For a host whose [connection_type] is anything but ["docker"],
    [get_docker_client] returns [None]: it raises nothing, contacts nothing
    and reads none of the SSH fields, whatever they hold. *)
Theorem get_docker_client_none_off_api (w : World) (host : Host.t) :
  Host.connection_type host <> "docker" ->
  get_docker_client w (DockerManager.mk (Some host)) = mkEff [] (inr None).
Proof.
  intros Hkind. unfold get_docker_client. cbn [DockerManager.host].
  rewrite host_attr_some, bind_ret.
  destruct (String.eqb_spec (Host.connection_type host) "docker") as [Heq | _].
  - contradiction.
  - reflexivity.
Qed.

Lemma get_docker_client_none_off_api_witness :
  get_docker_client calm_world (DockerManager.mk (Some ssh_host_incomplete))
  = mkEff [] (inr None).
Proof.
  apply (get_docker_client_none_off_api calm_world ssh_host_incomplete).
  vm_compute. discriminate.
Defined.

(** X18. For an API host with a non-empty [docker_url], [get_docker_client]
    builds exactly one client, bound to that URL; what the SDK answers, the
    client or an exception, is passed on unchanged. *)
Theorem get_docker_client_binds_url (w : World) (host : Host.t) (url : string) :
  Host.connection_type host = "docker" ->
  Host.docker_url host = Some url ->
  url <> "" ->
  get_docker_client w (DockerManager.mk (Some host))
  = mkEff [EvDockerClient (Some url)]
      (match docker_client_init w (Some url) with
       | inl e => inl e
       | inr client => inr (Some client)
       end).
Proof.
  intros Hkind Hurl Hne. unfold get_docker_client. cbn [DockerManager.host].
  rewrite !host_attr_some, bind_ret, Hkind. cbn [String.eqb Ascii.eqb Bool.eqb].
  rewrite bind_ret, Hurl. cbn [truthy].
  destruct (String.eqb_spec url "") as [-> | _]; [done |]. cbn [negb].
  unfold DockerClient_init, lift, bind, emit, ret. cbn.
  by destruct (docker_client_init w (Some url)).
Qed.

Lemma get_docker_client_binds_url_witness :
  get_docker_client calm_world (DockerManager.mk (Some api_host))
  = mkEff [EvDockerClient (Some "tcp://1.2.3.4:2375")]
      (match docker_client_init calm_world (Some "tcp://1.2.3.4:2375") with
       | inl e => inl e
       | inr client => inr (Some client)
       end).
Proof.
  apply (get_docker_client_binds_url calm_world api_host "tcp://1.2.3.4:2375");
    [reflexivity | reflexivity | discriminate].
Defined.


(** ** Remote commands *)

(** For a stored host the [try] block is one Fabric call followed by the
    trimming of its output. *)
Lemma run_ssh_command_body_some (w : World) (host : Host.t) (cmd : string) :
  run_ssh_command_body w (DockerManager.mk (Some host)) cmd
  = (let* result := fabric_invoke w (connection_of host) (call_of host cmd) in
     ret (PyStr.strip (Result.stdout result))).
Proof.
  unfold run_ssh_command_body. cbn [DockerManager.host].
  rewrite !host_attr_some, !bind_ret. unfold call_of, connection_of.
  by destruct (truthy (Host.sudo_user host)).
Qed.

Lemma fabric_invoke_trace_le (w : World) (conn : Connection.t) (call : fabric_call) :
  (length (trace (fabric_invoke w conn call)) <= 1)%nat.
Proof.
  unfold fabric_invoke, bind.
  destruct (remote w conn call) as [text | text | text | r]; cbn; try lia.
  destruct (Result.exited r =? 0)%Z; cbn; lia.
Qed.

(** When the constructor takes the arguments, the call is issued. *)
Lemma fabric_invoke_trace (w : World) (conn : Connection.t) (call : fabric_call) :
  (forall text, remote w conn call <> Refused text) ->
  trace (fabric_invoke w conn call) = [EvShell conn call].
Proof.
  intros Hok. unfold fabric_invoke, bind.
  destruct (remote w conn call) as [text | text | text | r] eqn:Hr; cbn; try done.
  - by destruct (Hok text).
  - by destruct (Result.exited r =? 0)%Z.
Qed.

Lemma fabric_invoke_refused (w : World) (conn : Connection.t)
    (call : fabric_call) (text : string) :
  remote w conn call = Refused text ->
  fabric_invoke w conn call = mkEff [] (inl (PyError "ValueError" text)).
Proof. intros Hr. unfold fabric_invoke. by rewrite Hr. Qed.

Lemma fabric_invoke_success (w : World) (conn : Connection.t)
    (call : fabric_call) (r : Result.t) :
  remote w conn call = Completed r -> Result.exited r = 0 ->
  fabric_invoke w conn call = mkEff [EvShell conn call] (inr r).
Proof.
  intros Hr Hexit. unfold fabric_invoke, bind. rewrite Hr.
  cbn [emit outcome trace]. rewrite Hexit. reflexivity.
Qed.

Lemma fabric_invoke_failure (w : World) (conn : Connection.t)
    (call : fabric_call) (text : string) :
  remote w conn call = ConnectFailure text \/
  remote w conn call = AuthFailure text \/
  (exists r, remote w conn call = Completed r /\ Result.exited r <> 0 /\
             text = str_UnexpectedExit w call r) ->
  exists cls, fabric_invoke w conn call
              = mkEff [EvShell conn call] (inl (PyError cls text)).
Proof.
  intros [Hr | [Hr | (r & Hr & Hexit & ->)]];
    unfold fabric_invoke, bind; rewrite Hr; cbn [emit outcome trace].
  - by eexists.
  - by eexists.
  - apply Z.eqb_neq in Hexit. rewrite Hexit. by eexists.
Qed.

(** The events of [run_ssh_command] are those of its one Fabric call. *)
Lemma run_ssh_command_trace (w : World) (host : Host.t) (cmd : string) :
  trace (run_ssh_command w (DockerManager.mk (Some host)) cmd)
  = trace (fabric_invoke w (connection_of host) (call_of host cmd)).
Proof.
  unfold run_ssh_command. rewrite run_ssh_command_body_some.
  destruct (fabric_invoke w (connection_of host) (call_of host cmd)) as [t [e | r]];
    cbn; by rewrite app_nil_r.
Qed.

(** C8. When the call fails, be it the connection, the authentication or a
    command that exits non-zero, [run_ssh_command] raises
    [HTTPException(500, "SSH command failed: " + text)] where [text] is the
    text of the failure: one exception class and one status for the three
    kinds of failure. *)
Theorem run_ssh_command_failure_uniform
    (w : World) (host : Host.t) (cmd text : string) :
  let conn := connection_of host in
  let call := call_of host cmd in
  remote w conn call = ConnectFailure text \/
  remote w conn call = AuthFailure text \/
  (exists r, remote w conn call = Completed r /\ Result.exited r <> 0 /\
             text = str_UnexpectedExit w call r) ->
  run_ssh_command w (DockerManager.mk (Some host)) cmd
  = mkEff [EvShell conn call]
      (inl (HTTPException 500 ("SSH command failed: " +:+ text)))
  /\ response_status
       (outcome (run_ssh_command w (DockerManager.mk (Some host)) cmd)) = 500.
Proof.
  intros conn call Hfail.
  destruct (fabric_invoke_failure w conn call text Hfail) as [cls Hinv].
  assert (Hrun : run_ssh_command w (DockerManager.mk (Some host)) cmd
                 = mkEff [EvShell conn call]
                     (inl (HTTPException 500 ("SSH command failed: " +:+ text)))).
  { unfold run_ssh_command. rewrite run_ssh_command_body_some.
    fold conn call. rewrite Hinv. reflexivity. }
  by rewrite Hrun.
Qed.

Lemma run_ssh_command_failure_uniform_witness :
  run_ssh_command refusing_world (DockerManager.mk (Some ssh_host)) "docker ps"
  = mkEff [EvShell (connection_of ssh_host) (call_of ssh_host "docker ps")]
      (inl (HTTPException 500 "SSH command failed: Connection refused"))
  /\ response_status
       (outcome (run_ssh_command refusing_world
                   (DockerManager.mk (Some ssh_host)) "docker ps")) = 500.
Proof.
  apply (run_ssh_command_failure_uniform refusing_world ssh_host "docker ps"
           "Connection refused").
  left. reflexivity.
Defined.

Example run_ssh_command_failure_auth :
  outcome (run_ssh_command (world_answering (AuthFailure "Authentication failed."))
             (DockerManager.mk (Some ssh_host_sudo)) "docker ps")
  = inl (HTTPException 500 "SSH command failed: Authentication failed.").
Proof. reflexivity. Qed.

Example run_ssh_command_failure_exit :
  outcome (run_ssh_command (world_answering (Completed (Result.mk "" "no such file" 1)))
             (DockerManager.mk (Some ssh_host)) "docker ps")
  = inl (HTTPException 500
           "SSH command failed: Encountered a bad command exit code!").
Proof. reflexivity. Qed.

(** Whatever goes wrong inside [run_ssh_command], a missing host included,
    leaves it as an [HTTPException] with status 500. *)
Lemma run_ssh_command_raises_500 (w : World) (self : DockerManager.t)
    (cmd : string) (e : exn) :
  outcome (run_ssh_command w self cmd) = inl e ->
  exists text, e = HTTPException 500 ("SSH command failed: " +:+ text).
Proof.
  unfold run_ssh_command, try_except.
  destruct (outcome (run_ssh_command_body w self cmd)) as [e' | out] eqn:Hbody.
  - cbn. intros [= <-]. by eexists.
  - rewrite Hbody. discriminate.
Qed.
(** ** Trimming *)

Lemma lstrip_split (s : string) :
  exists l, s = l +:+ PyStr.lstrip s /\ all_space l = true.
Proof.
  induction s as [| c r IH].
  - by exists EmptyString.
  - cbn [PyStr.lstrip]. destruct (PyStr.isspace c) eqn:Hc.
    + destruct IH as (l & Hl & Hsp). exists (String c l). split.
      * change (String c l +:+ PyStr.lstrip r)
          with (String c (l +:+ PyStr.lstrip r)).
        by rewrite <- Hl.
      * cbn [all_space]. by rewrite Hc.
    + by exists EmptyString.
Qed.

Lemma rstrip_split (s : string) :
  exists t, s = PyStr.rstrip s +:+ t /\ all_space t = true.
Proof.
  induction s as [| c r IH].
  - by exists EmptyString.
  - destruct IH as (t & Ht & Hsp). cbn [PyStr.rstrip].
    destruct (PyStr.rstrip r) as [| c' r'] eqn:Hr.
    + change (EmptyString +:+ t) with t in Ht. subst t.
      destruct (PyStr.isspace c) eqn:Hc.
      * exists (String c r). split; [done |].
        cbn [all_space]. by rewrite Hc.
      * by exists r.
    + exists t. split; [| done].
      change (String c (String c' r') +:+ t)
        with (String c (String c' r' +:+ t)).
      by rewrite <- Ht.
Qed.

Lemma lstrip_first (s : string) (c : ascii) :
  first_char (PyStr.lstrip s) = Some c -> PyStr.isspace c = false.
Proof.
  induction s as [| d r IH]; [done |].
  cbn [PyStr.lstrip]. destruct (PyStr.isspace d) eqn:Hd; [done |].
  by intros [= <-].
Qed.

Lemma rstrip_first (s : string) (c : ascii) :
  first_char (PyStr.rstrip s) = Some c -> first_char s = Some c.
Proof.
  destruct s as [| d r]; [done |]. cbn [PyStr.rstrip].
  destruct (PyStr.rstrip r); [destruct (PyStr.isspace d) |]; done.
Qed.

Lemma rstrip_last (s : string) (c : ascii) :
  last_char (PyStr.rstrip s) = Some c -> PyStr.isspace c = false.
Proof.
  induction s as [| d r IH]; [done |].
  cbn [PyStr.rstrip]. destruct (PyStr.rstrip r) as [| c' r'] eqn:Hr.
  - destruct (PyStr.isspace d) eqn:Hd; [done |]. by intros [= <-].
  - intros Hlast. apply IH. exact Hlast.
Qed.

(** [strip] removes whitespace at both ends and nothing else. *)
Lemma strip_spec (s : string) :
  (exists l t, s = l +:+ PyStr.strip s +:+ t /\
               all_space l = true /\ all_space t = true) /\
  trimmed (PyStr.strip s).
Proof.
  unfold PyStr.strip. split.
  - destruct (lstrip_split s) as (l & Hl & Hlsp).
    destruct (rstrip_split (PyStr.lstrip s)) as (t & Ht & Htsp).
    exists l, t. repeat split; try done. by rewrite <- Ht.
  - split; intros c Hc.
    + apply (lstrip_first s). by apply rstrip_first.
    + by apply (rstrip_last (PyStr.lstrip s)).
Qed.

(** C7. When the call succeeds, [run_ssh_command] returns the command's
    standard output with the whitespace at both of its ends removed, and
    nothing more: the value is a text, it is fixed by the standard output
    alone, and another successful run with the same standard output returns
    the same value whatever its standard error. *)
Theorem run_ssh_command_returns_trimmed_stdout
    (w : World) (host : Host.t) (cmd : string) (r : Result.t) :
  remote w (connection_of host) (call_of host cmd) = Completed r ->
  Result.exited r = 0 ->
  let returned := outcome (run_ssh_command w (DockerManager.mk (Some host)) cmd) in
  returned = inr (PyStr.strip (Result.stdout r)) /\
  (exists l t, Result.stdout r = l +:+ PyStr.strip (Result.stdout r) +:+ t /\
               all_space l = true /\ all_space t = true) /\
  trimmed (PyStr.strip (Result.stdout r)) /\
  (forall (w2 : World) (r2 : Result.t),
      remote w2 (connection_of host) (call_of host cmd) = Completed r2 ->
      Result.exited r2 = 0 ->
      Result.stdout r2 = Result.stdout r ->
      outcome (run_ssh_command w2 (DockerManager.mk (Some host)) cmd) = returned).
Proof.
  intros Hr Hexit returned.
  assert (Hrun : forall w' r',
             remote w' (connection_of host) (call_of host cmd) = Completed r' ->
             Result.exited r' = 0 ->
             outcome (run_ssh_command w' (DockerManager.mk (Some host)) cmd)
             = inr (PyStr.strip (Result.stdout r'))).
  { intros w' r' Hr' Hexit'. unfold run_ssh_command.
    rewrite run_ssh_command_body_some.
    by rewrite (fabric_invoke_success w' _ _ r' Hr' Hexit'). }
  destruct (strip_spec (Result.stdout r)) as [Hsplit Htrim].
  subst returned. rewrite (Hrun w r Hr Hexit). repeat split; try done.
  - apply Htrim.
  - apply Htrim.
  - intros w2 r2 Hr2 Hexit2 Hout. rewrite (Hrun w2 r2 Hr2 Hexit2). by rewrite Hout.
Qed.

Lemma run_ssh_command_returns_trimmed_stdout_witness :
  outcome (run_ssh_command calm_world (DockerManager.mk (Some ssh_host)) "docker ps")
  = inr "web db".
Proof.
  refine (proj1 (run_ssh_command_returns_trimmed_stdout calm_world ssh_host
                   "docker ps" (Result.mk ("  web db " +:+ newline) "warning" 0)
                   _ _)); reflexivity.
Defined.


(** ** More on remote commands *)

(** X16. [run_ssh_command] raises nothing but [HTTPException] with status
    500 and a detail that starts with ["SSH command failed: "], whatever the
    manager holds and whatever the outside answers; it issues at most one
    call and never a second one after a failure. *)
Theorem run_ssh_command_only_500 (w : World) (self : DockerManager.t) (cmd : string) :
  match outcome (run_ssh_command w self cmd) with
  | inl e => exists text, e = HTTPException 500 ("SSH command failed: " +:+ text)
  | inr _ => True
  end /\
  (length (trace (run_ssh_command w self cmd)) <= 1)%nat.
Proof.
  split.
  - destruct (outcome (run_ssh_command w self cmd)) as [e |] eqn:Hout; [| done].
    by apply (run_ssh_command_raises_500 w self cmd).
  - destruct self as [[host |]].
    + rewrite run_ssh_command_trace. apply fabric_invoke_trace_le.
    + cbn. lia.
Qed.

(** X17. A manager built on a missing host opens no session: the
    [AttributeError] of reading [sudo_password] off [None] is caught and
    raised again as [HTTPException(500, ..)] carrying its text. *)
Theorem run_ssh_command_without_host (w : World) (cmd : string) :
  run_ssh_command w (DockerManager.mk None) cmd
  = mkEff []
      (inl (HTTPException 500
              "SSH command failed: 'NoneType' object has no attribute 'sudo_password'")).
Proof. reflexivity. Qed.


(** C6, as amended. On a host whose connection arguments Fabric takes,
    [run_ssh_command] issues exactly one call, on a session opened as
    [ssh_user] with the host's address, port and key. When [sudo_user] is set
    (truthy) the call is [sudo] under that user with output hidden, and the
    session's configuration carries [sudo_password] when that is set;
    otherwise the call is a plain [run] with output hidden. The call is a
    [sudo] exactly when [sudo_user] is set, and a plain [run] exactly when it
    is not. *)
Theorem run_ssh_command_identity (w : World) (host : Host.t) (cmd : string) :
  let e := run_ssh_command w (DockerManager.mk (Some host)) cmd in
  let conn :=
    Connection.mk (Host.host host) (Host.ssh_user host) (Host.ssh_port host)
      (Host.ssh_key_filename host)
      (if truthy (Host.sudo_password host) then Host.sudo_password host else None) in
  let call :=
    if truthy (Host.sudo_user host) then Sudo cmd (Host.sudo_user host) true
    else Run cmd true in
  (forall text, remote w conn call <> Refused text) ->
  trace e = [EvShell conn call] /\
  (trace e = [EvShell conn (Sudo cmd (Host.sudo_user host) true)]
   <-> truthy (Host.sudo_user host) = true) /\
  (trace e = [EvShell conn (Run cmd true)]
   <-> truthy (Host.sudo_user host) = false).
Proof.
  intros e conn call Hok. subst e. rewrite run_ssh_command_trace.
  change (connection_of host) with conn. change (call_of host cmd) with call.
  rewrite (fabric_invoke_trace w conn call Hok). subst call.
  destruct (truthy (Host.sudo_user host)); repeat split; try done.
Qed.

Lemma run_ssh_command_identity_witness :
  let e := run_ssh_command calm_world (DockerManager.mk (Some ssh_host_sudo)) "docker ps" in
  let conn :=
    Connection.mk "prod.example.com" (Some "deploy") (Some 22) (Some "/k")
      (Some "s3cret") in
  trace e = [EvShell conn (Sudo "docker ps" (Some "root") true)] /\
  (trace e = [EvShell conn (Sudo "docker ps" (Some "root") true)]
   <-> truthy (Some "root") = true) /\
  (trace e = [EvShell conn (Run "docker ps" true)]
   <-> truthy (Some "root") = false).
Proof.
  apply (run_ssh_command_identity calm_world ssh_host_sudo "docker ps").
  intros text. discriminate.
Defined.

Example run_ssh_command_identity_plain :
  trace (run_ssh_command calm_world (DockerManager.mk (Some ssh_host)) "docker ps")
  = [EvShell (Connection.mk "prod.example.com" (Some "deploy") (Some 22)
                (Some "/k") None)
       (Run "docker ps" true)].
Proof. reflexivity. Qed.

(** C6, as stated, fails: where Fabric refuses a user given both in the host
    text and as [ssh_user], a host without [sudo_user] has no command run as
    the plain SSH user; no call is issued at all and the refusal is raised
    as [HTTPException(500, ..)]. *)
Lemma run_ssh_command_refused_connection :
  let e := run_ssh_command busy_world (DockerManager.mk (Some shorthand_host)) "docker ps" in
  truthy (Host.sudo_user shorthand_host) = false /\
  trace e = [] /\
  trace e <> [EvShell (connection_of shorthand_host) (Run "docker ps" true)] /\
  outcome e
  = inl (HTTPException 500
           "SSH command failed: You supplied the user via both shorthand and kwarg! Please pick one.").
Proof. repeat split. discriminate. Qed.

(** ** The Compose verbs *)

Lemma get_compose_on_api_host (w : World) (stack : Stack.t) (host : Host.t) :
  Host.connection_type host = "docker" ->
  _get_compose w (ComposeManager.init stack (Some host))
  = raise (HTTPException 400 "Docker Compose operations require SSH access").
Proof.
  intros Hkind. unfold _get_compose, ComposeManager.init.
  cbn [ComposeManager.host]. rewrite host_attr_some, bind_ret, Hkind.
  reflexivity.
Qed.

(** C1. On a stack bound to a host whose [connection_type] is ["docker"],
    each of [up], [down], [ps] and [restart] raises
    [HTTPException(400, ..)] with an empty trace: the constructor of the
    Compose wrapper has not been called and nothing has been sent. *)
Theorem compose_verbs_rejected_on_api_host
    (w : World) (stack : Stack.t) (host : Host.t) :
  Host.connection_type host = "docker" ->
  let self := ComposeManager.init stack (Some host) in
  let rejected : Eff pyobj :=
    mkEff [] (inl (HTTPException 400 "Docker Compose operations require SSH access")) in
  up w self = rejected /\ down w self = rejected /\
  ps w self = rejected /\ restart w self = rejected /\
  response_status (outcome rejected) = 400.
Proof.
  intros Hkind self rejected.
  unfold up, down, ps, restart, self.
  rewrite (get_compose_on_api_host w stack host Hkind). by repeat split.
Qed.

Lemma compose_verbs_rejected_on_api_host_witness :
  let self := ComposeManager.init app_stack (Some api_host) in
  let rejected : Eff pyobj :=
    mkEff [] (inl (HTTPException 400 "Docker Compose operations require SSH access")) in
  up calm_world self = rejected /\ down calm_world self = rejected /\
  ps calm_world self = rejected /\ restart calm_world self = rejected /\
  response_status (outcome rejected) = 400.
Proof.
  apply (compose_verbs_rejected_on_api_host calm_world app_stack api_host).
  reflexivity.
Defined.

Lemma get_compose_off_api_host (w : World) (stack : Stack.t) (host : Host.t) :
  Host.connection_type host <> "docker" ->
  _get_compose w (ComposeManager.init stack (Some host))
  = (let* working_dir :=
       getitem0 (PyStr.rsplit_slash_1 (Stack.compose_file stack)) in
     DockerCompose_init w working_dir (Stack.compose_file stack)
       (DockerManager.mk (Some host))).
Proof.
  intros Hkind. unfold _get_compose, ComposeManager.init.
  cbn [ComposeManager.host ComposeManager.stack ComposeManager.manager].
  rewrite host_attr_some, bind_ret.
  by destruct (String.eqb_spec (Host.connection_type host) "docker").
Qed.

Lemma rpartition_slash_none (path : string) :
  has_slash path = false -> PyStr.rpartition_slash path = None.
Proof.
  induction path as [| c r IH]; [done |].
  cbn [has_slash PyStr.rpartition_slash]. intros Hno.
  apply orb_false_iff in Hno as [Hc Hr]. by rewrite (IH Hr), Hc.
Qed.






(** C5. For a stack whose [compose_file] is ["/compose.yml"], on an SSH
    host, the constructor of the Compose wrapper is handed the empty text as
    working directory by all four verbs, where the parent directory of the
    file is ["/"]. *)
Theorem compose_working_dir_at_root (w : World) :
  let self := ComposeManager.init root_stack (Some ssh_host) in
  let build :=
    DockerCompose_init w "" "/compose.yml" (DockerManager.mk (Some ssh_host)) in
  parent_directory (Stack.compose_file root_stack) = "/" /\
  _get_compose w self = build /\
  trace build = [EvComposeInit "" "/compose.yml"] /\
  up w self = (let* compose := build in compose_call w compose (VUp true)) /\
  down w self = (let* compose := build in compose_call w compose VDown) /\
  ps w self = (let* compose := build in compose_call w compose VPs) /\
  restart w self = (let* compose := build in compose_call w compose VRestart).
Proof.
  intros self build.
  assert (Hget : _get_compose w self = build).
  { unfold self. rewrite get_compose_off_api_host; [| by vm_compute].
    change (Stack.compose_file root_stack) with "/compose.yml".
    change (PyStr.rsplit_slash_1 "/compose.yml") with [""; "compose.yml"].
    cbn [getitem0]. by rewrite bind_ret. }
  unfold up, down, ps, restart. rewrite Hget. repeat split.
  unfold build, DockerCompose_init, bind, emit. cbn.
  by destruct (compose_init w _).
Qed.

(** ** More on the Compose wrapper *)

(** X13. A [ComposeManager] built on a missing host cannot run a verb: each
    of [up], [down], [ps] and [restart] raises the [AttributeError] of
    reading [connection_type] off [None]; the constructor of the wrapper is
    not called and nothing is sent. *)
Theorem compose_verbs_without_host (w : World) (stack : Stack.t) :
  let self := ComposeManager.init stack None in
  let failed : Eff pyobj := mkEff [] (inl (NoneType_has_no "connection_type")) in
  up w self = failed /\ down w self = failed /\
  ps w self = failed /\ restart w self = failed /\
  response_status (outcome failed) = 500.
Proof. by repeat split. Qed.

(** X26. For a stack whose [compose_file] has no ["/"], on a host that is
    not an API host, the constructor of the wrapper is handed the
    [compose_file] itself as working directory. *)
Theorem compose_working_dir_without_slash
    (w : World) (stack : Stack.t) (host : Host.t) :
  Host.connection_type host <> "docker" ->
  has_slash (Stack.compose_file stack) = false ->
  _get_compose w (ComposeManager.init stack (Some host))
  = DockerCompose_init w (Stack.compose_file stack) (Stack.compose_file stack)
      (DockerManager.mk (Some host))
  /\ trace (_get_compose w (ComposeManager.init stack (Some host)))
     = [EvComposeInit (Stack.compose_file stack) (Stack.compose_file stack)].
Proof.
  intros Hkind Hno.
  assert (Hget : _get_compose w (ComposeManager.init stack (Some host))
                 = DockerCompose_init w (Stack.compose_file stack)
                     (Stack.compose_file stack) (DockerManager.mk (Some host))).
  { rewrite (get_compose_off_api_host w stack host Hkind).
    unfold PyStr.rsplit_slash_1. rewrite (rpartition_slash_none _ Hno).
    cbn [getitem0]. by rewrite bind_ret. }
  rewrite Hget. split; [done |].
  unfold DockerCompose_init, bind, emit. cbn. by destruct (compose_init w _).
Qed.

Lemma compose_working_dir_without_slash_witness :
  _get_compose calm_world (ComposeManager.init bare_stack (Some ssh_host))
  = DockerCompose_init calm_world "docker-compose.yml" "docker-compose.yml"
      (DockerManager.mk (Some ssh_host))
  /\ trace (_get_compose calm_world (ComposeManager.init bare_stack (Some ssh_host)))
     = [EvComposeInit "docker-compose.yml" "docker-compose.yml"].
Proof.
  apply (compose_working_dir_without_slash calm_world bare_stack ssh_host);
    [vm_compute; discriminate | reflexivity].
Defined.



(** X28. On a host that is not an API host, when the constructor of the
    wrapper raises on the keywords it is called with, each of [up], [down],
    [ps] and [restart] raises that exception as it is, after the one
    constructor call; the wrapper is never asked to run the verb. *)
Theorem compose_verbs_constructor_failure
    (w : World) (stack : Stack.t) (host : Host.t) (e : exn) :
  Host.connection_type host <> "docker" ->
  (forall compose, compose_init w compose = Some e) ->
  let self := ComposeManager.init stack (Some host) in
  exists working_dir,
    let failed : Eff pyobj :=
      mkEff [EvComposeInit working_dir (Stack.compose_file stack)] (inl e) in
    up w self = failed /\ down w self = failed /\
    ps w self = failed /\ restart w self = failed.
Proof.
  intros Hkind Hinit self.
  assert (Hbuild : exists wd,
             _get_compose w self
             = mkEff [EvComposeInit wd (Stack.compose_file stack)] (inl e)).
  { unfold self. rewrite (get_compose_off_api_host w stack host Hkind).
    unfold PyStr.rsplit_slash_1.
    destruct (PyStr.rpartition_slash (Stack.compose_file stack)) as [[h t] |];
      cbn [getitem0]; rewrite bind_ret; eexists;
      unfold DockerCompose_init, bind, emit; cbn; by rewrite Hinit. }
  destruct Hbuild as (wd & Hbuild). exists wd.
  unfold up, down, ps, restart. rewrite Hbuild. by repeat split.
Qed.

Lemma compose_verbs_constructor_failure_witness :
  let self := ComposeManager.init app_stack (Some ssh_host) in
  exists working_dir,
    let failed : Eff pyobj :=
      mkEff [EvComposeInit working_dir (Stack.compose_file app_stack)]
        (inl (PyError "TypeError"
                "__init__() got an unexpected keyword argument 'working_dir'")) in
    up calm_world self = failed /\ down calm_world self = failed /\
    ps calm_world self = failed /\ restart calm_world self = failed.
Proof.
  apply (compose_verbs_constructor_failure calm_world app_stack ssh_host);
    [vm_compute; discriminate | reflexivity].
Defined.

(** X29. On a host that is not an API host, when the constructor of the
    wrapper takes its keywords, each verb builds the wrapper object once and
    calls the wrapper once with its own verb, [up] in detached mode; what
    the wrapper returns or raises is what the verb returns or raises. *)
Theorem compose_verbs_pass_through (w : World) (stack : Stack.t) (host : Host.t) :
  Host.connection_type host <> "docker" ->
  (forall compose, compose_init w compose = None) ->
  let self := ComposeManager.init stack (Some host) in
  let file := Stack.compose_file stack in
  exists compose,
    let ran (v : compose_verb) : Eff pyobj :=
      mkEff ([EvComposeInit (DockerCompose.working_dir compose) file;
              EvCompose (DockerCompose.working_dir compose) file v]
             ++ trace (compose_lib w compose v))
        (outcome (compose_lib w compose v)) in
    up w self = ran (VUp true) /\
    down w self = ran VDown /\
    ps w self = ran VPs /\
    restart w self = ran VRestart.
Proof.
  intros Hkind Hinit self file.
  assert (Hbuild : exists wd,
             _get_compose w self
             = mkEff [EvComposeInit wd file]
                 (inr (DockerCompose.mk wd file (DockerManager.mk (Some host))))).
  { unfold self. rewrite (get_compose_off_api_host w stack host Hkind).
    fold file. unfold PyStr.rsplit_slash_1.
    destruct (PyStr.rpartition_slash file) as [[h t] |];
      cbn [getitem0]; rewrite bind_ret; eexists;
      unfold DockerCompose_init, bind, emit; cbn; by rewrite Hinit. }
  destruct Hbuild as (wd & Hbuild).
  exists (DockerCompose.mk wd file (DockerManager.mk (Some host))).
  unfold up, down, ps, restart. rewrite Hbuild.
  unfold compose_call, bind, emit. cbn.
  repeat split;
    match goal with
    | |- context [compose_lib w ?c ?v] => by destruct (compose_lib w c v) as [t [x | x]]
    end.
Qed.

Lemma compose_verbs_pass_through_witness :
  let self := ComposeManager.init app_stack (Some ssh_host) in
  let file := Stack.compose_file app_stack in
  exists compose,
    let ran (v : compose_verb) : Eff pyobj :=
      mkEff ([EvComposeInit (DockerCompose.working_dir compose) file;
              EvCompose (DockerCompose.working_dir compose) file v]
             ++ trace (compose_lib busy_world compose v))
        (outcome (compose_lib busy_world compose v)) in
    up busy_world self = ran (VUp true) /\
    down busy_world self = ran VDown /\
    ps busy_world self = ran VPs /\
    restart busy_world self = ran VRestart.
Proof.
  apply (compose_verbs_pass_through busy_world app_stack ssh_host);
    [vm_compute; discriminate | reflexivity].
Defined.

(** ** The routes and the mapping *)

(** The declarations of [models.py] do not configure: [Stack.host] names a
    property [stacks] that [Host] does not have. *)
Lemma mapper_configure_fails : Mapper.configure Mapper.models = false.
Proof. reflexivity. Qed.

Lemma orm_fails {A} (w : World) (x : A) :
  Session.orm w x
  = inl (PyError "InvalidRequestError" (str_InvalidRequestError w)).
Proof. unfold Session.orm. by rewrite mapper_configure_fails. Qed.

(** What the two container routes would do with a lookup that found
    nothing: they read [connection_type] off [None]. *)
Lemma container_routes_on_none (w : World) (cid : string) :
  list_containers_on w None = raise (NoneType_has_no "connection_type") /\
  start_container_on w None cid = raise (NoneType_has_no "connection_type").
Proof. by split. Qed.

(** C2. With an empty registry, [list_containers] and [start_container] for
    host id 1 raise the [InvalidRequestError] of the lookup itself, which
    the boundary answers with 500, not 404. *)
Theorem container_routes_on_missing_host (w : World) :
  list_containers w 1 empty_session = (empty_session, mapper_failure w) /\
  start_container w 1 "web" empty_session = (empty_session, mapper_failure w) /\
  response_status (outcome (snd (list_containers w 1 empty_session))) = 500 /\
  response_status (outcome (snd (start_container w 1 "web" empty_session))) = 500.
Proof.
  unfold list_containers, start_container, Session.get_host.
  rewrite !orm_fails. by repeat split.
Qed.

(** C9. [create_stack] raises [InvalidRequestError], answered with 500,
    whether or not a host is stored under the host id, and stores nothing:
    for host id 1 in the empty registry it does not raise the 404, and for
    host id 1 in a registry that stores host 1 it creates no stack. *)
Theorem create_stack_fails_on_the_mapping (w : World) (stack : Stack.t) :
  create_stack w 1 stack empty_session = (empty_session, mapper_failure w) /\
  create_stack w 1 stack api_session = (api_session, mapper_failure w) /\
  response_status (outcome (mapper_failure (A := Stack.t) w)) = 500.
Proof.
  unfold create_stack, Session.instance. rewrite !orm_fails. by repeat split.
Qed.

(** C3. [delete_host] never leaves a stack without its host: whatever host
    id it is called with, the lookup raises before anything is deleted, the
    failure is answered with 500, and the registry is the one before the
    call; a registry in which every stack names a stored host stays so. *)
Theorem delete_host_never_orphans (w : World) (host_id : Z) (session : Session.t) :
  Session.stacks_reference_hosts session ->
  delete_host w host_id session = (session, mapper_failure w) /\
  response_status (outcome (snd (delete_host w host_id session))) = 500 /\
  Session.stacks_reference_hosts (fst (delete_host w host_id session)).
Proof.
  intros Hinv.
  assert (Hdelete : delete_host w host_id session = (session, mapper_failure w)).
  { unfold delete_host, Session.get_host. by rewrite orm_fails. }
  rewrite Hdelete. by repeat split.
Qed.

Lemma delete_host_never_orphans_witness :
  delete_host calm_world 1 api_session = (api_session, mapper_failure calm_world) /\
  response_status (outcome (snd (delete_host calm_world 1 api_session))) = 500 /\
  Session.stacks_reference_hosts (fst (delete_host calm_world 1 api_session)).
Proof.
  apply (delete_host_never_orphans calm_world 1 api_session).
  unfold Session.stacks_reference_hosts, api_session.
  cbn [Session.stacks Session.hosts].
  apply map_Forall_singleton. by eexists.
Defined.

(** X1. Every route of the API that touches the session or is handed a
    [Host] or a [Stack] raises [InvalidRequestError], answered with 500,
    whatever it is called with; nothing is sent to a host and the registry is
    the one before the call. *)
Theorem every_route_fails_on_the_mapping
    (w : World) (session : Session.t) (host_id stack_id : Z)
    (host : Host.t) (stack : Stack.t) (container_id : string) :
  add_host w host session = (session, mapper_failure w) /\
  list_hosts w session = (session, mapper_failure w) /\
  get_host w host_id session = (session, mapper_failure w) /\
  delete_host w host_id session = (session, mapper_failure w) /\
  list_containers w host_id session = (session, mapper_failure w) /\
  start_container w host_id container_id session = (session, mapper_failure w) /\
  create_stack w host_id stack session = (session, mapper_failure w) /\
  list_stacks w host_id session = (session, mapper_failure w) /\
  stack_up w stack_id session = (session, mapper_failure w) /\
  stack_down w stack_id session = (session, mapper_failure w) /\
  stack_ps w stack_id session = (session, mapper_failure w) /\
  response_status (outcome (mapper_failure (A := unit) w)) = 500.
Proof.
  unfold add_host, list_hosts, get_host, delete_host, list_containers,
    start_container, create_stack, list_stacks, stack_up, stack_down, stack_ps,
    Session.instance, Session.get_host, Session.get_stack,
    Session.select_hosts, Session.select_stacks.
  rewrite !orm_fails. by repeat split.
Qed.

(** ** The container routes past the lookup *)

Lemma get_docker_client_ok (w : World) (host : Host.t) (url : string)
    (client : DockerClient.t) :
  Host.connection_type host = "docker" ->
  Host.docker_url host = Some url ->
  url <> "" ->
  docker_client_init w (Some url) = inr client ->
  get_docker_client w (DockerManager.mk (Some host))
  = mkEff [EvDockerClient (Some url)] (inr (Some client)).
Proof.
  intros Hkind Hurl Hne Hinit. unfold get_docker_client. cbn [DockerManager.host].
  rewrite !host_attr_some, bind_ret, Hkind. cbn [String.eqb Ascii.eqb Bool.eqb].
  rewrite bind_ret, Hurl. cbn [truthy].
  destruct (String.eqb_spec url "") as [-> | _]; [done |]. cbn [negb].
  unfold DockerClient_init, lift, bind, emit, ret. cbn. by rewrite Hinit.
Qed.

Lemma run_ssh_command_success (w : World) (host : Host.t) (cmd : string)
    (r : Result.t) :
  remote w (connection_of host) (call_of host cmd) = Completed r ->
  Result.exited r = 0 ->
  run_ssh_command w (DockerManager.mk (Some host)) cmd
  = mkEff [EvShell (connection_of host) (call_of host cmd)]
      (inr (PyStr.strip (Result.stdout r))).
Proof.
  intros Hr Hexit. unfold run_ssh_command. rewrite run_ssh_command_body_some.
  by rewrite (fabric_invoke_success w _ _ r Hr Hexit).
Qed.

Lemma mapM_lift_trace {A B} (f : A -> exn + B) (l : list A) :
  trace (mapM (fun x => lift (f x)) l) = [].
Proof.
  induction l as [| x l IH]; [done |].
  cbn [mapM]. unfold bind at 1. unfold lift at 1. cbn [outcome trace].
  destruct (f x) as [e | y]; [done |].
  cbn. unfold bind. destruct (outcome (mapM _ l)); cbn; by rewrite IH.
Qed.

(** All lines parse, or the first one that does not decides. *)
Lemma mapM_lift_outcome {A B} (f : A -> exn + B) (l : list A) :
  match outcome (mapM (fun x => lift (f x)) l) with
  | inr ys => Forall2 (fun x y => f x = inr y) l ys
  | inl e => exists x, x ∈ l /\ f x = inl e
  end.
Proof.
  induction l as [| x l IH]; [by constructor |].
  cbn [mapM]. unfold bind at 1. unfold lift at 1. cbn [outcome trace].
  destruct (f x) as [e | y] eqn:Hx.
  - exists x. split; [apply list_elem_of_here | done].
  - unfold bind. destruct (outcome (mapM _ l)) as [e | ys]; cbn.
    + destruct IH as (x' & Hin & Hx'). exists x'. split; [| done].
      by apply list_elem_of_further.
    + by constructor.
Qed.

Lemma lstrip_all_space (s : string) :
  all_space s = true -> PyStr.lstrip s = EmptyString.
Proof.
  induction s as [| c r IH]; [done |]. cbn [all_space PyStr.lstrip].
  intros Hsp. apply andb_true_iff in Hsp as [Hc Hr]. rewrite Hc. by apply IH.
Qed.

(** X20. Handed an API host whose client can be built, the body of
    [list_containers] asks the daemon once, for all containers, stopped ones
    included, and returns one [id]/[name]/[status] object per container in
    the daemon's order; an exception of the daemon is passed on as it is,
    not turned into an [HTTPException]. *)
Theorem list_containers_on_api_host
    (w : World) (host : Host.t) (url : string) (client : DockerClient.t) :
  Host.connection_type host = "docker" ->
  Host.docker_url host = Some url ->
  url <> "" ->
  docker_client_init w (Some url) = inr client ->
  list_containers_on w (Some host)
  = mkEff [EvDockerClient (Some url); EvDaemon client (ContainersList true)]
      (match daemon_list w client with
       | inl e => inl e
       | inr cs => inr (map container_dict cs)
       end).
Proof.
  intros Hkind Hurl Hne Hinit. unfold list_containers_on.
  rewrite host_attr_some, bind_ret, Hkind. cbn [String.eqb Ascii.eqb Bool.eqb].
  rewrite (get_docker_client_ok w host url client Hkind Hurl Hne Hinit).
  unfold bind, lift, emit, ret, client_containers. cbn.
  by destruct (daemon_list w client).
Qed.

Lemma list_containers_on_api_host_witness :
  list_containers_on busy_world (Some api_host)
  = mkEff [EvDockerClient (Some "tcp://1.2.3.4:2375");
           EvDaemon (DockerClient.mk (Some "tcp://1.2.3.4:2375")) (ContainersList true)]
      (inr [JObj [("id", JStr "0a1b2c3d4e5f"); ("name", JStr "web");
                  ("status", JStr "running")];
            JObj [("id", JStr "6f7e8d9c0b1a"); ("name", JStr "db");
                  ("status", JStr "exited")]]).
Proof.
  apply (list_containers_on_api_host busy_world api_host "tcp://1.2.3.4:2375"
           (DockerClient.mk (Some "tcp://1.2.3.4:2375")));
    [reflexivity | reflexivity | discriminate | reflexivity].
Defined.

(** X21. Handed an API host whose client can be built, the body of
    [start_container] first gets the container and then starts it. When the
    daemon does not know the container, its exception is passed on and no
    start is issued; when the start succeeds the confirmation message names
    the container. *)
Theorem start_container_on_api_host
    (w : World) (host : Host.t) (url cid : string) (client : DockerClient.t) :
  Host.connection_type host = "docker" ->
  Host.docker_url host = Some url ->
  url <> "" ->
  docker_client_init w (Some url) = inr client ->
  start_container_on w (Some host) cid
  = match daemon_get w client cid with
    | inl e =>
        mkEff [EvDockerClient (Some url); EvDaemon client (ContainersGet cid)]
          (inl e)
    | inr container =>
        mkEff [EvDockerClient (Some url); EvDaemon client (ContainersGet cid);
               EvDaemon client (ContainerStart cid)]
          (match daemon_start w client container with
           | inl e => inl e
           | inr _ => inr ("Started container " +:+ cid)
           end)
    end.
Proof.
  intros Hkind Hurl Hne Hinit. unfold start_container_on.
  rewrite host_attr_some, bind_ret, Hkind. cbn [String.eqb Ascii.eqb Bool.eqb].
  rewrite (get_docker_client_ok w host url client Hkind Hurl Hne Hinit).
  unfold bind, lift, emit, ret, client_containers. cbn.
  destruct (daemon_get w client cid) as [e | container]; cbn; [done |].
  by destruct (daemon_start w client container) as [e | []].
Qed.

Lemma start_container_on_api_host_witness :
  start_container_on busy_world (Some api_host) "web"
  = mkEff [EvDockerClient (Some "tcp://1.2.3.4:2375");
           EvDaemon (DockerClient.mk (Some "tcp://1.2.3.4:2375")) (ContainersGet "web");
           EvDaemon (DockerClient.mk (Some "tcp://1.2.3.4:2375")) (ContainerStart "web")]
      (inr "Started container web").
Proof.
  apply (start_container_on_api_host busy_world api_host "tcp://1.2.3.4:2375"
           "web" (DockerClient.mk (Some "tcp://1.2.3.4:2375")));
    [reflexivity | reflexivity | discriminate | reflexivity].
Defined.

Example start_container_on_unknown_container :
  start_container_on bare_world (Some api_host) "web"
  = mkEff [EvDockerClient (Some "tcp://1.2.3.4:2375");
           EvDaemon (DockerClient.mk (Some "tcp://1.2.3.4:2375")) (ContainersGet "web")]
      (inl (PyError "NotFound" "No such container: web")).
Proof. reflexivity. Qed.

(** X22. Handed an SSH host on which the listing command succeeds, the body
    of [list_containers] has issued that one command and nothing else, and
    it returns one parsed object per line of the trimmed output, in order;
    when a line does not parse, the exception of [json.loads] for such a
    line is raised and no partial list is returned. *)
Theorem list_containers_on_ssh_host (w : World) (host : Host.t) (r : Result.t) :
  let cmd := "docker ps -a --format '{{json .}}'" in
  let lines := PyStr.splitlines (PyStr.strip (Result.stdout r)) in
  Host.connection_type host <> "docker" ->
  remote w (connection_of host) (call_of host cmd) = Completed r ->
  Result.exited r = 0 ->
  trace (list_containers_on w (Some host))
  = [EvShell (connection_of host) (call_of host cmd)] /\
  match outcome (list_containers_on w (Some host)) with
  | inr objects => Forall2 (fun line obj => json_loads w line = inr obj) lines objects
  | inl e => exists line, line ∈ lines /\ json_loads w line = inl e
  end.
Proof.
  intros cmd lines Hkind Hr Hexit.
  assert (Hbody : list_containers_on w (Some host)
                  = mkEff [EvShell (connection_of host) (call_of host cmd)]
                      (outcome (mapM (fun line => lift (json_loads w line)) lines))).
  { unfold list_containers_on. rewrite host_attr_some, bind_ret.
    destruct (String.eqb_spec (Host.connection_type host) "docker"); [done |].
    fold cmd. rewrite (run_ssh_command_success w host cmd r Hr Hexit).
    unfold bind at 1. cbn [outcome trace]. fold lines.
    by rewrite mapM_lift_trace. }
  rewrite Hbody. cbn [trace outcome]. split; [done |].
  apply mapM_lift_outcome.
Qed.

Lemma list_containers_on_ssh_host_witness :
  trace (list_containers_on busy_world (Some ssh_host))
  = [EvShell (connection_of ssh_host)
       (call_of ssh_host "docker ps -a --format '{{json .}}'")] /\
  match outcome (list_containers_on busy_world (Some ssh_host)) with
  | inr objects =>
      Forall2 (fun line obj => json_loads busy_world line = inr obj)
        (PyStr.splitlines (PyStr.strip ("{}" +:+ newline +:+ "[1, 2]" +:+ newline)))
        objects
  | inl e =>
      exists line,
        line ∈ PyStr.splitlines (PyStr.strip ("{}" +:+ newline +:+ "[1, 2]" +:+ newline)) /\
        json_loads busy_world line = inl e
  end.
Proof.
  apply (list_containers_on_ssh_host busy_world ssh_host
           (Result.mk ("{}" +:+ newline +:+ "[1, 2]" +:+ newline) "" 0));
    [vm_compute; discriminate | reflexivity | reflexivity].
Defined.

Example list_containers_on_two_lines :
  outcome (list_containers_on busy_world (Some ssh_host))
  = inr [JStr "{}"; JStr "[1, 2]"].
Proof. reflexivity. Qed.

(** X23. Handed an SSH host on which the listing command succeeds and
    prints nothing but whitespace, the body of [list_containers] returns the
    empty list. *)
Theorem list_containers_blank_output (w : World) (host : Host.t) (r : Result.t) :
  Host.connection_type host <> "docker" ->
  remote w (connection_of host)
    (call_of host "docker ps -a --format '{{json .}}'") = Completed r ->
  Result.exited r = 0 ->
  all_space (Result.stdout r) = true ->
  outcome (list_containers_on w (Some host)) = inr [].
Proof.
  intros Hkind Hr Hexit Hblank.
  unfold list_containers_on. rewrite host_attr_some, bind_ret.
  destruct (String.eqb_spec (Host.connection_type host) "docker"); [done |].
  rewrite (run_ssh_command_success w host _ r Hr Hexit).
  unfold PyStr.strip. by rewrite (lstrip_all_space _ Hblank).
Qed.

Lemma list_containers_blank_output_witness :
  outcome (list_containers_on blank_world (Some ssh_host)) = inr [].
Proof.
  apply (list_containers_blank_output blank_world ssh_host
           (Result.mk (" " +:+ newline +:+ newline) "" 0));
    [vm_compute; discriminate | reflexivity | reflexivity | reflexivity].
Defined.

(** X24. Handed an SSH host on which the command succeeds, the body of
    [start_container] has issued [docker start <id>] once, with no check
    that the container exists, and answers with the confirmation message
    whatever the command printed. *)
Theorem start_container_on_ssh_host
    (w : World) (host : Host.t) (cid : string) (r : Result.t) :
  Host.connection_type host <> "docker" ->
  remote w (connection_of host) (call_of host ("docker start " +:+ cid)) = Completed r ->
  Result.exited r = 0 ->
  start_container_on w (Some host) cid
  = mkEff [EvShell (connection_of host) (call_of host ("docker start " +:+ cid))]
      (inr ("Started container " +:+ cid)).
Proof.
  intros Hkind Hr Hexit. unfold start_container_on.
  rewrite host_attr_some, bind_ret.
  destruct (String.eqb_spec (Host.connection_type host) "docker"); [done |].
  by rewrite (run_ssh_command_success w host _ r Hr Hexit).
Qed.

Lemma start_container_on_ssh_host_witness :
  start_container_on calm_world (Some ssh_host) "web"
  = mkEff [EvShell (connection_of ssh_host) (call_of ssh_host "docker start web")]
      (inr "Started container web").
Proof.
  apply (start_container_on_ssh_host calm_world ssh_host "web"
           (Result.mk ("  web db " +:+ newline) "warning" 0));
    [vm_compute; discriminate | reflexivity | reflexivity].
Defined.
